(** * DeepSeek-OCR web client: the upload / submit / render workflow

    A shallow embedding of the script block and of the result pane of
    [web_app/frontend/src/App.vue], and the properties of the client
    workflow checked against it.

    The component is a handful of reactive cells ([ref]s), two derived
    cells ([computed]s), four event handlers and one asynchronous handler
    that suspends once, at [await axios.post].  The embedding keeps that
    shape:

    - JavaScript values that cross the wire are a small inductive type with
      the two conversions the script performs on them (truthiness and
      string concatenation);
    - handlers are written in a state-and-exception monad over a [World]
      that holds the component state next to the browser resources the
      handlers touch (object URLs, requests in flight, the notification
      log);
    - the asynchronous handler is cut at its [await] into a dispatch half
      and a settle half, so that other handlers may run in between, as the
      event loop allows. *)

From stdpp Require Import base option list gmap strings pretty.
From Stdlib Require Import Lia Ascii.

#[local] Set Warnings "-register-all".

(** ** JavaScript values *)

Module JS.

(** The values a JSON payload can hold, plus [undefined].  A number is
    held as the text JavaScript prints for it ([7], [0.5], [1e+21],
    [NaN], ...): that text determines the number up to the sign of zero,
    and both things the script does with a number, testing it and
    concatenating it, are functions of it.  A text that JavaScript prints
    for no number stands for no value; what is proved below holds for
    every text all the same. *)
Inductive jsval : Type :=
  | JUndefined
  | JNull
  | JBool (b : bool)
  | JNum (shown : string)
  | JStr (s : string)
  | JArr (items : list jsval)
  | JObj (fields : gmap string jsval).

(** [ToBoolean]: what [if (v)], [v && _], [v || _] and [!v] look at.
    The falsy numbers are the zeros, both printed [0], and [NaN]. *)
Definition truthy (v : jsval) : bool :=
  match v with
  | JUndefined | JNull => false
  | JBool b => b
  | JNum "0" | JNum "NaN" => false
  | JNum _ => true
  | JStr "" => false
  | JStr _ => true
  | JArr _ | JObj _ => true
  end.

(** [a && b] and [a || b] on values (both operands here are pure). *)
Definition and_ (a b : jsval) : jsval := if truthy a then b else a.
Definition or_ (a b : jsval) : jsval := if truthy a then a else b.

(** [v.k] for a data property [k] on a value that is neither [null] nor
    [undefined]: own field of an object, [undefined] otherwise (the
    script reads [result] and [detail] only, which no primitive wrapper
    or array has).  Both reads in the script are protected, one by [&&]
    and one by [?.], so the [TypeError] case is never reached. *)
Definition get (v : jsval) (k : string) : jsval :=
  match v with
  | JObj fields => default JUndefined (fields !! k)
  | _ => JUndefined
  end.

(** [v?.k] *)
Definition get_opt (v : jsval) (k : string) : jsval :=
  match v with
  | JUndefined | JNull => JUndefined
  | _ => get v k
  end.

(** [ToString], as applied by [string + v]; [None] stands for the
    [TypeError] of a value that cannot be converted.  An array joins its
    elements with commas, [null] and [undefined] elements contributing
    nothing.  An object parsed from JSON has no callable property of its
    own, so it prints as [[object Object]] through the inherited
    [toString], unless a key [toString] of its own hides that one: then
    no method yields a primitive and the conversion throws. *)
Fixpoint to_string (v : jsval) : option string :=
  match v with
  | JUndefined => Some "undefined"
  | JNull => Some "null"
  | JBool true => Some "true"
  | JBool false => Some "false"
  | JNum shown => Some shown
  | JStr s => Some s
  | JArr items =>
      (fix join (l : list jsval) : option string :=
         match l with
         | [] => Some ""
         | x :: rest =>
             match
               match x with
               | JUndefined | JNull => Some ""
               | _ => to_string x
               end
             with
             | None => None
             | Some here =>
                 match rest with
                 | [] => Some here
                 | _ =>
                     match join rest with
                     | None => None
                     | Some tail => Some (here +:+ "," +:+ tail)
                     end
                 end
             end
         end) items
  | JObj fields =>
      match fields !! "toString" with
      | Some _ => None
      | None => Some "[object Object]"
      end
  end.

End JS.
Import JS.

(** ** Browser and library objects the script talks to *)

(** The [File] behind an upload entry: its name and its bytes. *)
Record RawFile : Type := mkRawFile {
  file_name : string;
  file_bytes : string
}.

(** An entry of the upload list, as [el-upload] hands it to [on-change].
    [raw] is optional in the library's type, and the script tests it. *)
Record UploadFile : Type := mkUploadFile {
  name : string;
  raw : option RawFile
}.

(** [selectedMode]: the radio group offers exactly these two labels. *)
Inductive RecognitionMode : Type := Markdown | Ocr.

Definition mode_label (m : RecognitionMode) : string :=
  match m with
  | Markdown => "markdown"
  | Ocr => "ocr"
  end.

(** [FormData]: an ordered list of named entries; [append] adds at the end
    and keeps earlier entries of the same name.  A value that is not a
    [Blob] is stored as its string conversion. *)
Inductive FormValue : Type :=
  | FormFile (f : RawFile)
  | FormString (s : string).

Definition FormData : Type := list (string * FormValue).

Definition append (k : string) (v : FormValue) (fd : FormData) : FormData :=
  fd ++ [(k, v)].

Definition form_value_of_raw (r : option RawFile) : FormValue :=
  match r with
  | Some f => FormFile f
  | None => FormString "undefined"
  end.

(** What [axios.post url body config] puts on the wire. *)
Record Request : Type := mkRequest {
  req_url : string;
  req_body : FormData;
  req_headers : list (string * string)
}.

(** The part of an axios response the script reads. *)
Record AxiosResponse : Type := mkResponse {
  data : jsval
}.

(** A thrown value: an [Error] with its [message]; an axios error that got
    an answer from the server also carries that [response]. *)
Record JsError : Type := mkError {
  message : string;
  response : option AxiosResponse
}.

(** How an awaited promise settles. *)
Inductive Outcome : Type :=
  | Fulfilled (r : AxiosResponse)
  | Rejected (e : JsError).

Inductive MessageType : Type := MsgSuccess | MsgWarning | MsgError.

(** The calls the script makes on its environment, in the order made. *)
Inductive Effect : Type :=
  | ElMessage (type : MessageType) (text : string)
  | AxiosPost (req : Request)
  | ConsoleError (e : JsError)
  | ClipboardWriteText (arg : jsval)
  | CreateObjectURL (blob : RawFile) (id : nat)
  | RevokeObjectURL (id : nat).

(** The string [URL.createObjectURL] returns for the [id]-th allocation. *)
Definition object_url (id : nat) : string := "blob:" +:+ pretty id.

(** ** Component state *)

(** The [ref]s of the script, in declaration order, and the cache of the
    [imageUrl] computed ([None] while it is dirty).  [renderedMarkdown] has
    a getter without side effects, so it is read as the getter applied to
    the current state (see [renderedMarkdown] below). *)
Record State : Type := mkState {
  uploadUrl : string;
  fileList : list UploadFile;
  selectedMode : RecognitionMode;
  loading : bool;
  result : jsval;
  rawResult : jsval;
  activeResultTab : string;
  imageUrl_cache : option string
}.

Definition initial_state : State :=
  {| uploadUrl := "";
     fileList := [];
     selectedMode := Markdown;
     loading := false;
     result := JStr "";
     rawResult := JStr "";
     activeResultTab := "preview";
     imageUrl_cache := None |}.

(** Assignments to [.value].  Writing [fileList] marks [imageUrl] dirty,
    since its getter reads it. *)
Definition write_fileList (l : list UploadFile) (s : State) : State :=
  {| uploadUrl := uploadUrl s; fileList := l; selectedMode := selectedMode s;
     loading := loading s; result := result s; rawResult := rawResult s;
     activeResultTab := activeResultTab s; imageUrl_cache := None |}.

Definition write_selectedMode (m : RecognitionMode) (s : State) : State :=
  {| uploadUrl := uploadUrl s; fileList := fileList s; selectedMode := m;
     loading := loading s; result := result s; rawResult := rawResult s;
     activeResultTab := activeResultTab s; imageUrl_cache := imageUrl_cache s |}.

Definition write_loading (b : bool) (s : State) : State :=
  {| uploadUrl := uploadUrl s; fileList := fileList s; selectedMode := selectedMode s;
     loading := b; result := result s; rawResult := rawResult s;
     activeResultTab := activeResultTab s; imageUrl_cache := imageUrl_cache s |}.

Definition write_result (v : jsval) (s : State) : State :=
  {| uploadUrl := uploadUrl s; fileList := fileList s; selectedMode := selectedMode s;
     loading := loading s; result := v; rawResult := rawResult s;
     activeResultTab := activeResultTab s; imageUrl_cache := imageUrl_cache s |}.

Definition write_rawResult (v : jsval) (s : State) : State :=
  {| uploadUrl := uploadUrl s; fileList := fileList s; selectedMode := selectedMode s;
     loading := loading s; result := result s; rawResult := v;
     activeResultTab := activeResultTab s; imageUrl_cache := imageUrl_cache s |}.

Definition write_activeResultTab (t : string) (s : State) : State :=
  {| uploadUrl := uploadUrl s; fileList := fileList s; selectedMode := selectedMode s;
     loading := loading s; result := result s; rawResult := rawResult s;
     activeResultTab := t; imageUrl_cache := imageUrl_cache s |}.

Definition write_imageUrl_cache (c : option string) (s : State) : State :=
  {| uploadUrl := uploadUrl s; fileList := fileList s; selectedMode := selectedMode s;
     loading := loading s; result := result s; rawResult := rawResult s;
     activeResultTab := activeResultTab s; imageUrl_cache := c |}.

(** ** The world a handler runs in *)

(** The component state together with the browser resources:
    - [next_url], [live_urls]: the object-URL store ([live_urls] holds the
      URLs created and not revoked);
    - [inflight]: requests sent by [axios.post] and not yet settled;
    - [clip_inflight]: clipboard writes not yet settled;
    - [log]: every call made on the environment, oldest first;
    - [unhandled]: errors that left a handler of the script uncaught. *)
Record World : Type := mkWorld {
  app : State;
  next_url : nat;
  live_urls : gset nat;
  inflight : nat;
  clip_inflight : nat;
  log : list Effect;
  unhandled : list JsError
}.

Definition initial_world : World :=
  {| app := initial_state; next_url := 0; live_urls := ∅; inflight := 0;
     clip_inflight := 0; log := []; unhandled := [] |}.

(** ** The handler monad: state over [World], with exceptions *)

Inductive Completion (A : Type) : Type :=
  | Normal (a : A)
  | Throw (e : JsError).
Arguments Normal {A} a.
Arguments Throw {A} e.

Definition M (A : Type) : Type := World → Completion A * World.

#[global] Instance M_ret : MRet M := λ A a w, (Normal a, w).

#[global] Instance M_bind : MBind M := λ A B k m w,
  match m w with
  | (Normal a, w') => k a w'
  | (Throw e, w') => (Throw e, w')
  end.

Definition throw {A} (e : JsError) : M A := λ w, (Throw e, w).

(** [try { body } catch (error) { handler error }] *)
Definition try_catch {A} (body : M A) (handler : JsError → M A) : M A :=
  λ w, match body w with
       | (Normal a, w') => (Normal a, w')
       | (Throw e, w') => handler e w'
       end.

(** [try { body } finally { final }]: [final] runs on both completions; the
    completion of [body] stands unless [final] itself throws. *)
Definition try_finally {A} (body : M A) (final : M unit) : M A :=
  λ w, match body w with
       | (c, w') =>
           match final w' with
           | (Normal _, w'') => (c, w'')
           | (Throw e, w'') => (Throw e, w'')
           end
       end.

(** [await p] for a promise that settles as [o]. *)
Definition await (o : Outcome) : M AxiosResponse :=
  match o with
  | Fulfilled r => mret r
  | Rejected e => throw e
  end.

Definition read : M State := λ w, (Normal (app w), w).

Definition modify (f : State → State) : M unit :=
  λ w, (Normal tt,
        {| app := f (app w); next_url := next_url w; live_urls := live_urls w;
           inflight := inflight w; clip_inflight := clip_inflight w;
           log := log w; unhandled := unhandled w |}).

Definition emit (e : Effect) (w : World) : World :=
  {| app := app w; next_url := next_url w; live_urls := live_urls w;
     inflight := inflight w; clip_inflight := clip_inflight w;
     log := log w ++ [e]; unhandled := unhandled w |}.

(** *** Environment calls *)

Definition elMessage (type : MessageType) (text : string) : M unit :=
  λ w, (Normal tt, emit (ElMessage type text) w).

Definition console_error (e : JsError) : M unit :=
  λ w, (Normal tt, emit (ConsoleError e) w).

(** [axios.post]: the request leaves, and one more promise is pending. *)
Definition axios_post (url : string) (body : FormData)
    (headers : list (string * string)) : M unit :=
  λ w, let w' := emit (AxiosPost (mkRequest url body headers)) w in
       (Normal tt,
        {| app := app w'; next_url := next_url w'; live_urls := live_urls w';
           inflight := S (inflight w'); clip_inflight := clip_inflight w';
           log := log w'; unhandled := unhandled w' |}).

(** The [TypeError]s the script can run into.  Their message texts are
    the engine's, and nothing below depends on them. *)
Definition cannot_convert : JsError :=
  {| message := "Cannot convert object to primitive value"; response := None |}.

Definition clipboard_undefined : JsError :=
  {| message := "Cannot read properties of undefined (reading 'writeText')";
     response := None |}.

(** [navigator.clipboard.writeText(arg)].  [navigator.clipboard] is defined
    in a secure context only ([clipboard] tells whether it is): without it
    the property read throws.  With it the write of [arg] is requested and
    its promise is pending; what the browser makes of [arg] shows in how
    the promise settles. *)
Definition clipboard_writeText (clipboard : bool) (arg : jsval) : M unit :=
  λ w, if clipboard then
         let w' := emit (ClipboardWriteText arg) w in
         (Normal tt,
          {| app := app w'; next_url := next_url w'; live_urls := live_urls w';
             inflight := inflight w'; clip_inflight := S (clip_inflight w');
             log := log w'; unhandled := unhandled w' |})
       else (Throw clipboard_undefined, w).

(** [URL.createObjectURL]: a fresh URL, live until revoked. *)
Definition createObjectURL (blob : RawFile) : M string :=
  λ w, let id := next_url w in
       let w' := emit (CreateObjectURL blob id) w in
       (Normal (object_url id),
        {| app := app w'; next_url := S id; live_urls := {[id]} ∪ live_urls w';
           inflight := inflight w'; clip_inflight := clip_inflight w';
           log := log w'; unhandled := unhandled w' |}).

(** [URL.revokeObjectURL]: the other half of the object-URL interface.  The
    script never calls it; it is here to say what a release is. *)
Definition revokeObjectURL (id : nat) : M unit :=
  λ w, let w' := emit (RevokeObjectURL id) w in
       (Normal tt,
        {| app := app w'; next_url := next_url w'; live_urls := live_urls w' ∖ {[id]};
           inflight := inflight w'; clip_inflight := clip_inflight w';
           log := log w'; unhandled := unhandled w' |}).

(** ** The script of [App.vue] *)

(** The getter of the [imageUrl] computed. *)
Definition imageUrl_getter : M string :=
  s ← read;
  match fileList s with
  | file0 :: _ =>
      match raw file0 with
      | Some blob => createObjectURL blob
      | None => mret ""
      end
  | [] => mret ""
  end.

(** Reading [imageUrl.value]: a computed is lazy and cached, so the getter
    runs only on a read that finds the cell dirty. *)
Definition imageUrl : M string :=
  s ← read;
  match imageUrl_cache s with
  | Some url => mret url
  | None =>
      url ← imageUrl_getter;
      modify (write_imageUrl_cache (Some url));;
      mret url
  end.

Definition handleUploadChange (file : UploadFile) : M unit :=
  modify (write_fileList [file]);;
  modify (write_result (JStr ""));;
  modify (write_rawResult (JStr "")).

Definition handleRemove : M unit :=
  modify (write_fileList []);;
  modify (write_result (JStr ""));;
  modify (write_rawResult (JStr "")).

(** The multipart body [submitUpload] builds. *)
Definition build_formData (file0 : UploadFile) (mode : RecognitionMode) : FormData :=
  append "mode" (FormString (mode_label mode))
    (append "file" (form_value_of_raw (raw file0)) []).

(** [submitUpload], from its entry to the [await]: the guard, the flag,
    the form and the call of [axios.post].  Returns whether it suspended. *)
Definition submitUpload_dispatch : M bool :=
  s ← read;
  match fileList s with
  | [] =>
      elMessage MsgWarning "请先选择一张图片";;
      mret false
  | file0 :: _ =>
      modify (write_loading true);;
      axios_post "/api/ocr" (build_formData file0 (selectedMode s))
        [("Content-Type", "multipart/form-data")];;
      mret true
  end.

(** [error.response?.data] *)
Definition response_data (error : JsError) : jsval :=
  match response error with
  | Some r => data r
  | None => JUndefined
  end.

(** The text of the failure notification: the prefix concatenated with
    the detail or, failing that, the message.  [None] when the
    concatenation throws. *)
Definition failure_text (error : JsError) : option string :=
  match to_string (or_ (get_opt (response_data error) "detail") (JStr (message error))) with
  | Some text => Some ("识别失败: " +:+ text)
  | None => None
  end.

(** [submitUpload], from the [await] to its end: the rest of the [try]
    block, the [catch] and the [finally].  The argument of
    [ElMessage.error] is evaluated before the call, so a concatenation
    that throws leaves the [catch] block without a notification. *)
Definition submitUpload_resume (o : Outcome) : M unit :=
  try_finally
    (try_catch
       (response ← await o;
        if truthy (and_ (data response) (get (data response) "result"))
        then
          modify (write_result (get (data response) "result"));;
          modify (write_rawResult (get (data response) "result"));;
          elMessage MsgSuccess "识别成功"
        else
          elMessage MsgWarning "未返回识别结果")
       (λ error,
          console_error error;;
          match failure_text error with
          | Some text => elMessage MsgError text
          | None => throw cannot_convert
          end))
    (modify (write_loading false)).

(** [copyResult], up to the call of [writeText]. *)
Definition copyResult (clipboard : bool) : M unit :=
  s ← read;
  if negb (truthy (rawResult s)) then mret tt
  else clipboard_writeText clipboard (rawResult s).

(** The chain [.then(...).catch(...)] hung on the clipboard promise, run
    when that promise settles ([failure] is its rejection, if any). *)
Definition copyResult_settled (failure : option JsError) : M unit :=
  try_catch
    (match failure with
     | None => mret tt
     | Some e => throw e
     end;;
     elMessage MsgSuccess "复制成功")
    (λ _, elMessage MsgError "复制失败").

(** ** Sessions *)

(** What can happen to the component: a user gesture, the settling of a
    promise the component waits on, or a read of [imageUrl.value].  The
    template does not bind [imageUrl]; the read stands for any consumer of
    the cell, and without one its getter never runs.  What the environment
    contributes to an event comes with it: how the request or the
    clipboard write settled, and, for a click on the copy button, whether
    the page has [navigator.clipboard]. *)
Inductive Action : Type :=
  | SelectFile (file : UploadFile)
  | RemoveFile
  | SetMode (m : RecognitionMode)
  | SetTab (t : string)
  | Submit
  | Respond (o : Outcome)
  | Copy (clipboard : bool)
  | ClipboardSettle (failure : option JsError)
  | ReadImageUrl.

(** Running a handler to completion; an error that escapes it is recorded. *)
Definition run_handler {A} (h : M A) (w : World) : World :=
  match h w with
  | (Normal _, w') => w'
  | (Throw e, w') =>
      {| app := app w'; next_url := next_url w'; live_urls := live_urls w';
         inflight := inflight w'; clip_inflight := clip_inflight w';
         log := log w'; unhandled := unhandled w' ++ [e] |}
  end.

Definition with_inflight (n : nat) (w : World) : World :=
  {| app := app w; next_url := next_url w; live_urls := live_urls w;
     inflight := n; clip_inflight := clip_inflight w;
     log := log w; unhandled := unhandled w |}.

Definition with_clip_inflight (n : nat) (w : World) : World :=
  {| app := app w; next_url := next_url w; live_urls := live_urls w;
     inflight := inflight w; clip_inflight := n;
     log := log w; unhandled := unhandled w |}.

(** One event.  A promise can settle only if one is pending. *)
Definition step (a : Action) (w : World) : World :=
  match a with
  | SelectFile file => run_handler (handleUploadChange file) w
  | RemoveFile => run_handler handleRemove w
  | SetMode m => run_handler (modify (write_selectedMode m)) w
  | SetTab t => run_handler (modify (write_activeResultTab t)) w
  | Submit => run_handler submitUpload_dispatch w
  | Respond o =>
      match inflight w with
      | 0 => w
      | S n => run_handler (submitUpload_resume o) (with_inflight n w)
      end
  | Copy clipboard => run_handler (copyResult clipboard) w
  | ClipboardSettle failure =>
      match clip_inflight w with
      | 0 => w
      | S n => run_handler (copyResult_settled failure) (with_clip_inflight n w)
      end
  | ReadImageUrl => run_handler imageUrl w
  end.

Fixpoint run (acts : list Action) (w : World) : World :=
  match acts with
  | [] => w
  | a :: rest => run rest (step a w)
  end.

(** The requests and notifications a world has seen. *)
Definition is_post (e : Effect) : bool :=
  match e with AxiosPost _ => true | _ => false end.

Definition is_revoke_of (id : nat) (e : Effect) : bool :=
  match e with RevokeObjectURL id' => Nat.eqb id id' | _ => false end.

Definition posts (w : World) : list Effect := filter (λ e, is_post e = true) (log w).

Definition revoke_count (id : nat) (w : World) : nat :=
  length (filter (λ e, is_revoke_of id e = true) (log w)).

(** The request a dispatch put on the wire, if it sent one: the last entry
    of the log. *)
Definition last_request (w : World) : option Request :=
  match last (log w) with
  | Some (AxiosPost req) => Some req
  | _ => None
  end.

(** The entries of a form other than those named [k]. *)
Definition without_field (k : string) (fd : FormData) : FormData :=
  filter (λ kv, kv.1 ≠ k) fd.

Definition field (k : string) (fd : FormData) : list FormValue :=
  (filter (λ kv, kv.1 = k) fd).*2.

(** ** Statements about worlds *)

(** No release of an object URL was ever asked for. *)
Definition never_revoked (w : World) : Prop :=
  Forall (λ e, ∀ id, e ≠ RevokeObjectURL id) (log w).

(** Release on replacement or removal, as the specification words it:
    every URL that was allocated and is not the current preview any more
    has been released, once. *)
Definition preview_urls_released (w : World) : Prop :=
  ∀ id, id < next_url w →
    imageUrl_cache (app w) ≠ Some (object_url id) →
    (id ∉ live_urls w) ∧ revoke_count id w = 1.

(** The success path, as the specification words it: when the pending
    request settles with [r], both cells hold [s] and the success
    notification is the last thing reported. *)
Definition success_written (r : AxiosResponse) (s : string) (w : World) : Prop :=
  rawResult (app (step (Respond (Fulfilled r)) w)) = JStr s ∧
  result (app (step (Respond (Fulfilled r)) w)) = JStr s ∧
  last (log (step (Respond (Fulfilled r)) w)) = Some (ElMessage MsgSuccess "识别成功").



(** The [detail] field of the server's error answer, when there is one. *)
Definition server_detail (e : JsError) : option jsval :=
  match response e with
  | Some r =>
      match data r with
      | JObj fields => fields !! "detail"
      | _ => None
      end
  | None => None
  end.



(** ** Sample data and sessions *)

Definition photo : UploadFile :=
  {| name := "photo.png"; raw := Some (mkRawFile "photo.png" "PNG-bytes") |}.

Definition payload (v : jsval) : Outcome :=
  Fulfilled {| data := JObj {[ "result" := v ]} |}.

Definition empty_result_response : AxiosResponse :=
  {| data := JObj {[ "result" := JStr "" ]} |}.

Definition network_error : JsError :=
  {| message := "Network Error"; response := None |}.

Definition server_error : JsError :=
  {| message := "Request failed with status code 500";
     response := Some {| data := JObj {[ "detail" := JStr "model not loaded" ]} |} |}.

(** An error answer whose [detail] is an object with a key [toString]. *)
Definition unprintable_error : JsError :=
  {| message := "Request failed with status code 400";
     response := Some {| data := JObj {[ "detail" := JObj {[ "toString" := JNum "1" ]} ]} |} |}.

Definition permission_denied : JsError :=
  {| message := "Write permission denied."; response := None |}.

(** A world with an earlier result on display and a second request out. *)
Definition world_with_old_result : World :=
  run [SelectFile photo; Submit; Respond (payload (JStr "old")); Submit] initial_world.

Definition world_with_abc : World :=
  run [SelectFile photo; Submit; Respond (payload (JStr "abc"))] initial_world.

(** Select a file, look at its preview, remove the file. *)
Definition preview_then_remove : list Action :=
  [SelectFile photo; ReadImageUrl; RemoveFile].

(** ** Rendering *)

(** What the preview tab shows. *)
Inductive PreviewPane : Type :=
  | LoadingState
  | MarkdownBody (html : string)
  | EmptyState.

Section Renderer.

(** The [marked] function of the markdown library, which is not part of
    the repository: from a value to markup, or an error thrown. *)
Variable marked : jsval → Completion string.

(** The getter of the [renderedMarkdown] computed.  It reads [result]
    and nothing else, so the cell always holds this value. *)
Definition renderedMarkdown (s : State) : Completion string :=
  marked (result s).

(** The preview tab of the template: the skeleton while loading, the
    rendered markup when [result] is truthy, the placeholder otherwise.
    [renderedMarkdown] is read in the second branch only. *)
Definition preview_pane (s : State) : Completion PreviewPane :=
  if loading s then Normal LoadingState
  else if truthy (result s) then
    match renderedMarkdown s with
    | Normal html => Normal (MarkdownBody html)
    | Throw e => Throw e
    end
  else Normal EmptyState.

End Renderer.

(** The lines of a text, cut at line feeds. *)
Fixpoint lines (s : string) : list string :=
  match s with
  | "" => [""]
  | String c rest =>
      if Ascii.eqb c "010"%char then "" :: lines rest
      else
        match lines rest with
        | l :: ls => String c l :: ls
        | [] => [String c ""]
        end
  end.

(** A line that opens with a hash and a space is a heading, a blank line
    is nothing, any other line is a paragraph. *)
Definition render_line (l : string) : string :=
  match l with
  | "" => ""
  | String "#"%char (String " "%char title) => "<h1>" +:+ title +:+ "</h1>"
  | _ => "<p>" +:+ l +:+ "</p>"
  end.

(** Modelled from the spec: [marked], the structured-text-to-markup
    transform, comes from a library that is not among the sources.  The
    specification asks of it a pure function of the text that tolerates
    arbitrary text, renders nothing for the empty text and never raises,
    and expects a heading element for [# Title] and a paragraph for a
    line of plain text.  This model does that much, line by line; on a
    value that is not a text, of which the specification says nothing, it
    raises. *)
Definition marked_model (v : jsval) : Completion string :=
  match v with
  | JStr text => Normal (foldr (λ l html, render_line l +:+ html) "" (lines text))
  | _ => Throw {| message := "marked(): input parameter is not a string"; response := None |}
  end.

(** The scenario of the specification: a heading and a body. *)
Definition title_and_body : string :=
  "# Title" +:+ String "010"%char (String "010"%char "Body").

Definition scenario : list Action :=
  [SelectFile photo; Submit; Respond (payload (JStr title_and_body))].

(** ** Further statements about events, requests and the preview cache *)

(** The events that assign the mode cell, and those that assign the file
    list. *)
Definition is_SetMode (a : Action) : bool :=
  match a with SetMode _ => true | _ => false end.

Definition changes_selection (a : Action) : bool :=
  match a with SelectFile _ | RemoveFile => true | _ => false end.

(** A request as [submitUpload] builds it: the fixed address and header,
    and a form of one [file] entry followed by one [mode] entry. *)
Definition well_formed_request (r : Request) : Prop :=
  req_url r = "/api/ocr" ∧
  req_headers r = [("Content-Type", "multipart/form-data")] ∧
  ∃ v m, req_body r = [("file", v); ("mode", FormString (mode_label m))].

(** Every request in the log satisfies [P]. *)
Definition all_posts (P : Request → Prop) (w : World) : Prop :=
  Forall (λ e, match e with AxiosPost r => P r | _ => True end) (log w).

(** A valid cache of [imageUrl] agrees with the file list it was computed
    from: a live object URL if the first file has its [raw], the empty
    string otherwise. *)
Definition cache_coherent (w : World) : Prop :=
  ∀ url, imageUrl_cache (app w) = Some url →
    match fileList (app w) with
    | file0 :: _ =>
        match raw file0 with
        | Some _ => ∃ id, url = object_url id ∧ id ∈ live_urls w
        | None => url = ""
        end
    | [] => url = ""
    end.

(** The events on which an error can leave its handler: a click on the
    copy button in a page without [navigator.clipboard], and a rejection
    whose notification text cannot be built. *)
Definition can_escape (a : Action) : bool :=
  match a with
  | Copy false => true
  | Respond (Rejected e) =>
      match failure_text e with
      | Some _ => false
      | None => true
      end
  | _ => false
  end.

Definition is_ReadImageUrl (a : Action) : bool :=
  match a with ReadImageUrl => true | _ => false end.

(** [n] rounds of selecting a file and looking at its preview. *)
Fixpoint preview_rounds (n : nat) (file : UploadFile) : list Action :=
  match n with
  | 0 => []
  | S n' => SelectFile file :: ReadImageUrl :: preview_rounds n' file
  end.

(** * Properties *)

(** ** The definitions, run *)

Example to_string_array :
  to_string (JArr [JNum "1"; JNull; JStr "a"; JArr [JBool true; JNum "-2.5"]])
    = Some "1,,a,true,-2.5" ∧
  to_string (JArr [JStr "a"; JObj {[ "toString" := JNum "1" ]}]) = None.
Proof. split; vm_compute; reflexivity. Qed.

Example get_result_field :
  get (JObj (<["result" := JStr "abc"]> ∅)) "result" = JStr "abc".
Proof. vm_compute. reflexivity. Qed.

Example run_select_submit_ok :
  let w := run [SelectFile photo; Submit; Respond (payload (JStr "abc"))] initial_world in
  rawResult (app w) = JStr "abc" ∧ result (app w) = JStr "abc" ∧
  loading (app w) = false ∧ inflight w = 0 ∧
  log w = [AxiosPost (mkRequest "/api/ocr"
                        [("file", FormFile (mkRawFile "photo.png" "PNG-bytes"));
                         ("mode", FormString "markdown")]
                        [("Content-Type", "multipart/form-data")]);
           ElMessage MsgSuccess "识别成功"].
Proof. vm_compute. repeat split; reflexivity. Qed.

Example run_server_detail :
  let err := {| message := "Request failed with status code 500";
                response := Some {| data := JObj {[ "detail" := JStr "model not loaded" ]} |} |} in
  let w := run [SelectFile photo; Submit; Respond (Rejected err)] initial_world in
  log w !! 2 = Some (ElMessage MsgError "识别失败: model not loaded") ∧
  loading (app w) = false ∧ unhandled w = [].
Proof. vm_compute. repeat split; reflexivity. Qed.

Example run_preview_url :
  let w := run [SelectFile photo; ReadImageUrl; ReadImageUrl] initial_world in
  imageUrl_cache (app w) = Some "blob:0" ∧ next_url w = 1.
Proof. vm_compute. split; reflexivity. Qed.

(** ** Reasoning about one event *)

Ltac unfold_script :=
  unfold step, run_handler, handleUploadChange, handleRemove,
    submitUpload_dispatch, submitUpload_resume, copyResult, copyResult_settled,
    imageUrl, imageUrl_getter, try_finally, try_catch, await, elMessage,
    console_error, axios_post, clipboard_writeText, createObjectURL, modify,
    read, throw, emit, with_inflight, with_clip_inflight,
    mbind, M_bind, mret, M_ret in *.

(** Splits an event into the paths the script can take on it. *)
Ltac step_paths a :=
  destruct a as [file| |m|t| |[r|e]|[|]|[e|]|];
  unfold_script; cbn;
  repeat case_match; simplify_eq/=;
  repeat match goal with E : ?x = _ |- context [?x] => rewrite !E end; cbn.

(** A property of worlds that every event preserves holds along every
    session that starts where it holds. *)
Lemma run_invariant (P : World → Prop) :
  (∀ a w, P w → P (step a w)) →
  ∀ acts w, P w → P (run acts w).
Proof.
  intros Hstep acts. induction acts as [|a rest IH]; intros w Hw; cbn.
  - exact Hw.
  - apply IH, Hstep, Hw.
Qed.

(** *** At most one file *)

Lemma step_fileList_le_1 a w :
  length (fileList (app w)) ≤ 1 → length (fileList (app (step a w))) ≤ 1.
Proof. step_paths a; cbn; lia. Qed.

(** *** The two result cells move together *)

Lemma step_result_rawResult a w :
  result (app w) = rawResult (app w) →
  result (app (step a w)) = rawResult (app (step a w)).
Proof. step_paths a; done. Qed.

(** *** The flag is up only while a request is pending *)

Lemma step_loading_inflight a w :
  (loading (app w) = true → 0 < inflight w) →
  loading (app (step a w)) = true → 0 < inflight (step a w).
Proof. step_paths a; cbn; intros; try lia; try done; auto. Qed.

(** *** Where no error escapes a handler *)

Lemma step_unhandled a w :
  can_escape a = false → unhandled (step a w) = unhandled w.
Proof. step_paths a; done. Qed.

Lemma step_never_revoked a w : never_revoked w → never_revoked (step a w).
Proof.
  unfold never_revoked.
  step_paths a; cbn; rewrite ?Forall_app, ?Forall_cons, ?Forall_nil; intros; repeat split; done.
Qed.

Lemma step_live_urls a w :
  (∀ id, id ∈ live_urls w ↔ id < next_url w) →
  ∀ id, id ∈ live_urls (step a w) ↔ id < next_url (step a w).
Proof.
  step_paths a; cbn; try done.
  all: intros H id; rewrite elem_of_union, elem_of_singleton, H; lia.
Qed.

Lemma never_revoked_count w id : never_revoked w → revoke_count id w = 0.
Proof.
  unfold never_revoked, revoke_count. induction (log w) as [|e l IH]; [done|].
  rewrite Forall_cons. intros [He Hl]. rewrite filter_cons.
  destruct e; cbn; auto.
  case_decide as Heq; [|auto]. apply Nat.eqb_eq in Heq. subst. by destruct (He id0).
Qed.

(** ** Selection *)

(** C6. Along every session at most one file is selected, and right after
    a file is selected (for the first time or in place of another) or
    removed, both result cells, the raw text and the source of the
    rendering, hold the empty string. *)
Theorem one_file_and_result_cleared :
  (∀ acts, length (fileList (app (run acts initial_world))) ≤ 1) ∧
  (∀ w file,
     fileList (app (step (SelectFile file) w)) = [file] ∧
     rawResult (app (step (SelectFile file) w)) = JStr "" ∧
     result (app (step (SelectFile file) w)) = JStr "") ∧
  (∀ w,
     fileList (app (step RemoveFile w)) = [] ∧
     rawResult (app (step RemoveFile w)) = JStr "" ∧
     result (app (step RemoveFile w)) = JStr "").
Proof.
  split; [|split].
  - intros acts.
    apply (run_invariant (λ w, length (fileList (app w)) ≤ 1)).
    + apply step_fileList_le_1.
    + cbn. lia.
  - intros w file. repeat split.
  - intros w. repeat split.
Qed.

(** ** Submission *)

(** The [finally] block has the last word on the flag. *)
Lemma resume_clears_loading o w :
  loading (app (run_handler (submitUpload_resume o) w)) = false.
Proof. destruct o as [r|e]; unfold_script; cbn; repeat case_match; by simplify_eq/=. Qed.

(** C2. With no file selected, [submitUpload] shows the warning, sends
    nothing and leaves the component state, the two result cells
    included, as it found it. *)
Theorem submit_without_file (w : World) :
  fileList (app w) = [] →
  log (step Submit w) = log w ++ [ElMessage MsgWarning "请先选择一张图片"] ∧
  posts (step Submit w) = posts w ∧
  inflight (step Submit w) = inflight w ∧
  app (step Submit w) = app w ∧
  rawResult (app (step Submit w)) = rawResult (app w) ∧
  result (app (step Submit w)) = result (app w).
Proof.
  intros Hnone. unfold posts. unfold_script. rewrite Hnone. cbn.
  rewrite filter_app, filter_cons, filter_nil. cbn.
  rewrite decide_False by done. rewrite app_nil_r.
  repeat split; by destruct w.
Qed.

Lemma submit_without_file_witness :
  fileList (app initial_world) = [] ∧
  log (step Submit initial_world) = [ElMessage MsgWarning "请先选择一张图片"] ∧
  posts (step Submit initial_world) = [].
Proof.
  split; [reflexivity|].
  pose proof (submit_without_file initial_world eq_refl) as (Hlog & Hposts & _).
  split; [exact Hlog | exact Hposts].
Defined.

(** C3. A [submitUpload] that finds a file raises the in-flight flag as it
    sends the request; whatever else happens while the request is pending,
    the flag is down once the invocation has run to its end, whichever way
    the request settled (a result, no result, a network error, an error
    answer) and also when the [catch] block itself throws: the [finally]
    block runs on every path.  Along every session the flag is up only
    while some request is pending. *)
Theorem loading_raised_then_cleared (w : World) (acts : list Action) (o : Outcome) :
  fileList (app w) ≠ [] →
  0 < inflight (run acts (step Submit w)) →
  loading (app (step Submit w)) = true ∧
  inflight (step Submit w) = S (inflight w) ∧
  (∃ req, last (log (step Submit w)) = Some (AxiosPost req)) ∧
  loading (app (step (Respond o) (run acts (step Submit w)))) = false ∧
  (∀ session,
     loading (app (run session initial_world)) = true →
     0 < inflight (run session initial_world)).
Proof.
  intros Hfile Hpending. repeat split.
  - unfold_script. destruct (fileList (app w)); done.
  - unfold_script. destruct (fileList (app w)); done.
  - unfold_script. destruct (fileList (app w)) as [|file0 rest]; [done|]. cbn.
    eexists. apply last_snoc.
  - destruct (inflight (run acts (step Submit w))) as [|n] eqn:Hn; [lia|].
    unfold step at 1. rewrite Hn. apply resume_clears_loading.
  - intros session.
    apply (run_invariant (λ w', loading (app w') = true → 0 < inflight w')).
    + apply step_loading_inflight.
    + cbn. done.
Qed.

Lemma loading_raised_then_cleared_witness :
  loading (app (run [SelectFile photo; Submit] initial_world)) = true ∧
  loading (app (run [SelectFile photo; Submit; SetMode Ocr; Respond (Rejected unprintable_error)]
                  initial_world)) = false ∧
  unhandled (run [SelectFile photo; Submit; SetMode Ocr; Respond (Rejected unprintable_error)]
               initial_world) = [cannot_convert].
Proof.
  pose proof (loading_raised_then_cleared (step (SelectFile photo) initial_world)
                [SetMode Ocr] (Rejected unprintable_error)) as H.
  destruct H as (Hup & _ & _ & Hdown & _).
  - discriminate.
  - vm_compute. lia.
  - split; [exact Hup|]. split; [exact Hdown | vm_compute; reflexivity].
Defined.

(** C9. Two submissions of the same file under different modes send
    requests with the same address and headers and with the same form
    entries apart from [mode]; the [mode] entry of each is the label of the
    mode selected when it was submitted, [markdown] or [ocr]. *)
Theorem requests_differ_only_in_mode (w1 w2 : World) (file : UploadFile)
    (rest1 rest2 : list UploadFile) :
  fileList (app w1) = file :: rest1 →
  fileList (app w2) = file :: rest2 →
  selectedMode (app w1) ≠ selectedMode (app w2) →
  ∃ r1 r2,
    last_request (step Submit w1) = Some r1 ∧
    last_request (step Submit w2) = Some r2 ∧
    req_url r1 = "/api/ocr" ∧ req_url r2 = "/api/ocr" ∧
    req_headers r1 = req_headers r2 ∧
    without_field "mode" (req_body r1) = without_field "mode" (req_body r2) ∧
    field "file" (req_body r1) = [form_value_of_raw (raw file)] ∧
    field "mode" (req_body r1) = [FormString (mode_label (selectedMode (app w1)))] ∧
    field "mode" (req_body r2) = [FormString (mode_label (selectedMode (app w2)))] ∧
    mode_label (selectedMode (app w1)) ≠ mode_label (selectedMode (app w2)) ∧
    (∀ m, mode_label m = "markdown" ∨ mode_label m = "ocr").
Proof.
  intros H1 H2 Hmode.
  eexists _, _. unfold last_request. unfold_script. rewrite H1, H2. cbn.
  rewrite !last_snoc. cbn.
  repeat split.
  - destruct (selectedMode (app w1)), (selectedMode (app w2)); done.
  - intros []; auto.
Qed.

Lemma requests_differ_only_in_mode_witness :
  ∃ r1 r2,
    last_request (run [SelectFile photo; Submit] initial_world) = Some r1 ∧
    last_request (run [SelectFile photo; SetMode Ocr; Submit] initial_world) = Some r2 ∧
    without_field "mode" (req_body r1) = without_field "mode" (req_body r2) ∧
    field "mode" (req_body r1) = [FormString "markdown"] ∧
    field "mode" (req_body r2) = [FormString "ocr"].
Proof.
  destruct (requests_differ_only_in_mode
              (run [SelectFile photo] initial_world)
              (run [SelectFile photo; SetMode Ocr] initial_world)
              photo [] [] eq_refl eq_refl)
    as (r1 & r2 & Hr1 & Hr2 & _ & _ & _ & Hsame & _ & Hm1 & Hm2 & _).
  - discriminate.
  - exists r1, r2. repeat split; assumption.
Defined.

(** *** The answer arrives *)

(** C4, as worded, fails on a payload whose [result] text is empty: the
    earlier text stays and a warning is shown instead of the success. *)
Lemma empty_result_not_written :
  0 < inflight world_with_old_result ∧
  get (data empty_result_response) "result" = JStr "" ∧
  rawResult (app (step (Respond (Fulfilled empty_result_response)) world_with_old_result))
    = JStr "old" ∧
  last (log (step (Respond (Fulfilled empty_result_response)) world_with_old_result))
    = Some (ElMessage MsgWarning "未返回识别结果") ∧
  ¬ success_written empty_result_response "" world_with_old_result.
Proof.
  split; [vm_compute; lia|].
  split; [vm_compute; reflexivity|].
  split; [vm_compute; reflexivity|].
  split; [vm_compute; reflexivity|].
  intros (Hraw & _). vm_compute in Hraw. discriminate.
Qed.

Lemma get_text_truthy (v : jsval) (k s : string) :
  get v k = JStr s → s ≠ "" → truthy (and_ v (get v k)) = true.
Proof.
  intros Hget Hs. destruct v; try discriminate.
  unfold and_. cbn [truthy]. rewrite Hget. by destruct s.
Qed.

(** C4 (amended). When the request settles with a payload whose [result]
    field is a non-empty text [s], the settle half of [submitUpload] writes
    [s] into both result cells and reports success. *)
Theorem nonempty_result_written (w : World) (r : AxiosResponse) (s : string) :
  0 < inflight w →
  get (data r) "result" = JStr s →
  s ≠ "" →
  success_written r s w ∧
  log (step (Respond (Fulfilled r)) w) = log w ++ [ElMessage MsgSuccess "识别成功"].
Proof.
  intros Hpending Hget Hs. unfold success_written.
  pose proof (get_text_truthy _ _ _ Hget Hs) as Htruthy.
  destruct (inflight w) as [|n] eqn:Hn; [lia|].
  unfold step. rewrite Hn. unfold_script. cbn. rewrite Htruthy, Hget. cbn.
  rewrite last_snoc. done.
Qed.

Lemma nonempty_result_written_witness :
  rawResult (app (run [SelectFile photo; Submit; Respond (payload (JStr "abc"))] initial_world))
    = JStr "abc".
Proof.
  pose proof (nonempty_result_written (run [SelectFile photo; Submit] initial_world)
                {| data := JObj {[ "result" := JStr "abc" ]} |} "abc") as H.
  destruct H as ((Hraw & _) & _).
  - vm_compute. lia.
  - vm_compute. reflexivity.
  - discriminate.
  - exact Hraw.
Defined.

(** C10. A [result] field that is present but falsy (the empty text,
    [null], [false], zero) is taken for a missing one: the settle half
    does exactly what it does on the same payload without the field, that
    is, it shows the no-result warning and leaves both cells alone. *)
Theorem falsy_result_as_absent (w : World) (fields : gmap string jsval) (v : jsval) :
  0 < inflight w →
  fields !! "result" = Some v →
  truthy v = false →
  step (Respond (Fulfilled {| data := JObj fields |})) w
    = step (Respond (Fulfilled {| data := JObj (delete "result" fields) |})) w ∧
  log (step (Respond (Fulfilled {| data := JObj fields |})) w)
    = log w ++ [ElMessage MsgWarning "未返回识别结果"] ∧
  rawResult (app (step (Respond (Fulfilled {| data := JObj fields |})) w)) = rawResult (app w) ∧
  result (app (step (Respond (Fulfilled {| data := JObj fields |})) w)) = result (app w).
Proof.
  intros Hpending Hfield Hfalsy.
  destruct (inflight w) as [|n] eqn:Hn; [lia|].
  unfold step. rewrite Hn. unfold_script. cbn.
  unfold and_. cbn. rewrite Hfield, lookup_delete_eq. cbn. rewrite Hfalsy. cbn.
  done.
Qed.

Lemma falsy_result_as_absent_witness :
  log (step (Respond (Fulfilled empty_result_response)) world_with_old_result)
    = log world_with_old_result ++ [ElMessage MsgWarning "未返回识别结果"].
Proof.
  pose proof (falsy_result_as_absent world_with_old_result {[ "result" := JStr "" ]} (JStr "")) as H.
  destruct H as (_ & Hlog & _).
  - vm_compute. lia.
  - vm_compute. reflexivity.
  - reflexivity.
  - exact Hlog.
Defined.

Lemma response_detail_lookup (e : JsError) :
  get_opt (response_data e) "detail" = default JUndefined (server_detail e).
Proof.
  unfold response_data, server_detail.
  destruct (response e) as [r|]; [|done]. by destruct (data r).
Qed.






(** ** Copying the result *)



(** ** Preview URLs *)

(** Only a read of [imageUrl] touches the object-URL store. *)
Lemma step_no_allocation (a : Action) (w : World) :
  is_ReadImageUrl a = false →
  next_url (step a w) = next_url w ∧ live_urls (step a w) = live_urls w.
Proof. step_paths a; done. Qed.



(** With a read of [imageUrl] in between, the URL allocated for a file is
    still live, and was never released, after the file is removed. *)
Lemma preview_url_leaks :
  fileList (app (run preview_then_remove initial_world)) = [] ∧
  log (run preview_then_remove initial_world)
    = [CreateObjectURL (mkRawFile "photo.png" "PNG-bytes") 0] ∧
  0 ∈ live_urls (run preview_then_remove initial_world) ∧
  revoke_count 0 (run preview_then_remove initial_world) = 0 ∧
  ¬ preview_urls_released (run preview_then_remove initial_world).
Proof.
  split; [reflexivity|]. split; [reflexivity|].
  split; [vm_compute; set_solver|]. split; [reflexivity|].
  intros Hreleased. destruct (Hreleased 0) as [_ Hcount].
  - vm_compute. lia.
  - vm_compute. discriminate.
  - vm_compute in Hcount. discriminate.
Qed.

(** ** Rendering *)

Lemma reachable_result_rawResult acts :
  result (app (run acts initial_world)) = rawResult (app (run acts initial_world)).
Proof.
  apply (run_invariant (λ w, result (app w) = rawResult (app w))).
  - apply step_result_rawResult.
  - reflexivity.
Qed.

Example marked_model_scenario :
  marked_model (JStr title_and_body) = Normal "<h1>Title</h1><p>Body</p>" ∧
  marked_model (JStr "") = Normal "".
Proof. split; vm_compute; reflexivity. Qed.

Section RendererProperties.

Variable marked : jsval → Completion string.

(** C7. Whatever the transform [marked] is, along every session the
    rendered markup is [marked] applied to the current raw text, and the
    preview, once the flag is down and the raw text is not empty, is that
    markup (or the error [marked] threw); so two states with the same raw
    text have the same rendered markup and, the in-flight flag being
    equal, show the same preview; and on the empty raw text the preview is
    the placeholder, without markup and without a call of [marked].  For
    the transform as the specification describes it ([marked_model]) the
    empty text renders to nothing, and on any raw text the preview is
    produced without an error: it is the markup of that text whenever the
    flag is down and the text is not empty. *)
Theorem rendered_view_function_of_raw_text (acts1 acts2 : list Action) :
  let s1 := app (run acts1 initial_world) in
  let s2 := app (run acts2 initial_world) in
  renderedMarkdown marked s1 = marked (rawResult s1) ∧
  (loading s1 = false → truthy (rawResult s1) = true →
     preview_pane marked s1
       = match marked (rawResult s1) with
         | Normal html => Normal (MarkdownBody html)
         | Throw e => Throw e
         end) ∧
  (rawResult s1 = rawResult s2 → renderedMarkdown marked s1 = renderedMarkdown marked s2) ∧
  (rawResult s1 = rawResult s2 → loading s1 = loading s2 →
     preview_pane marked s1 = preview_pane marked s2) ∧
  (rawResult s1 = JStr "" → loading s1 = false → preview_pane marked s1 = Normal EmptyState) ∧
  marked_model (JStr "") = Normal "" ∧
  (∀ t : string, rawResult s1 = JStr t →
     ∃ pane, preview_pane marked_model s1 = Normal pane) ∧
  (∀ t : string, rawResult s1 = JStr t → t ≠ "" → loading s1 = false →
     ∃ html, marked_model (JStr t) = Normal html ∧
             preview_pane marked_model s1 = Normal (MarkdownBody html)).
Proof.
  intros s1 s2.
  pose proof (reachable_result_rawResult acts1) as H1.
  pose proof (reachable_result_rawResult acts2) as H2.
  fold s1 in H1. fold s2 in H2.
  unfold preview_pane, renderedMarkdown. rewrite H1, H2.
  split; [done|]. split; [by intros -> ->|].
  split; [by intros ->|]. split; [by intros -> ->|]. split; [by intros -> ->|].
  split; [done|]. split.
  - intros t ->. destruct (loading s1); [by eexists|].
    destruct (truthy (JStr t)); by eexists.
  - intros t -> Hne ->. destruct t as [|c t]; [done|]. by eexists.
Qed.

End RendererProperties.

Lemma rendered_view_function_of_raw_text_witness :
  renderedMarkdown marked_model (app (run scenario initial_world))
    = Normal "<h1>Title</h1><p>Body</p>" ∧
  preview_pane marked_model (app (run scenario initial_world))
    = Normal (MarkdownBody "<h1>Title</h1><p>Body</p>") ∧
  preview_pane marked_model (app (run [SelectFile photo] initial_world)) = Normal EmptyState.
Proof.
  pose proof (rendered_view_function_of_raw_text marked_model scenario scenario)
    as (Hrendered & Hpane & _).
  pose proof (rendered_view_function_of_raw_text marked_model [SelectFile photo] [])
    as (_ & _ & _ & _ & Hempty & _).
  split; [|split].
  - rewrite Hrendered. vm_compute. reflexivity.
  - rewrite Hpane; vm_compute; reflexivity.
  - apply Hempty; reflexivity.
Defined.

(** ** Further properties of the script *)

(** *** The result cells *)

Lemma and_truthy (a b : jsval) : truthy (and_ a b) = true → truthy a = true ∧ truthy b = true.
Proof. unfold and_. destruct (truthy a) eqn:Ha; [done|]. by rewrite Ha. Qed.

(** X1. The two result cells always hold the same value: from a world in
    which [result] and [rawResult] agree, they agree after every sequence
    of events. *)
Theorem result_cells_agree (acts : list Action) (w : World) :
  result (app w) = rawResult (app w) →
  result (app (run acts w)) = rawResult (app (run acts w)).
Proof.
  apply (run_invariant (λ w', result (app w') = rawResult (app w'))).
  apply step_result_rawResult.
Qed.

Lemma result_cells_agree_witness :
  result (app (run [SelectFile photo; Submit; Respond (payload (JNum "7")); SetMode Ocr]
                 initial_world))
  = rawResult (app (run [SelectFile photo; Submit; Respond (payload (JNum "7")); SetMode Ocr]
                      initial_world)).
Proof. apply (result_cells_agree _ initial_world). reflexivity. Defined.

(** X2. An error leaves its handler uncaught on two kinds of event only:
    a click on the copy button in a page without [navigator.clipboard],
    and a rejection for which the text of the notification cannot be
    built.  Every other event, and every sequence of other events, leaves
    the list of uncaught errors as it was; a rejected clipboard write and
    a rejection with a printable detail are among them. *)
Theorem errors_escape_on_two_events_only (acts : list Action) (w : World) :
  forallb (λ a, negb (can_escape a)) acts = true →
  unhandled (run acts w) = unhandled w.
Proof.
  revert w. induction acts as [|a rest IH]; intros w Hacts; [done|].
  cbn in Hacts. apply andb_prop in Hacts as [Ha Hrest]. apply negb_true_iff in Ha.
  cbn [run]. rewrite IH by exact Hrest. by apply step_unhandled.
Qed.

Lemma errors_escape_on_two_events_only_witness :
  unhandled (run [SelectFile photo; Submit; Respond (Rejected server_error); Copy true;
                  ClipboardSettle (Some permission_denied); Submit;
                  Respond (Rejected network_error)] initial_world) = [].
Proof.
  apply (errors_escape_on_two_events_only _ initial_world). reflexivity.
Defined.

Lemma step_raw_empty_or_truthy (a : Action) (w : World) :
  rawResult (app w) = JStr "" ∨ truthy (rawResult (app w)) = true →
  rawResult (app (step a w)) = JStr "" ∨ truthy (rawResult (app (step a w))) = true.
Proof.
  step_paths a; auto.
  intros _. right.
  match goal with H : truthy (and_ _ _) = true |- _ => by apply and_truthy in H as [_ ?] end.
Qed.

(** X3. Along every session the raw result is either the empty string or
    a truthy value: the cell never holds [null], [undefined], [false] or
    zero. *)
Theorem raw_result_empty_or_truthy (acts : list Action) :
  rawResult (app (run acts initial_world)) = JStr "" ∨
  truthy (rawResult (app (run acts initial_world))) = true.
Proof.
  apply (run_invariant
           (λ w, rawResult (app w) = JStr "" ∨ truthy (rawResult (app w)) = true)).
  - apply step_raw_empty_or_truthy.
  - by left.
Qed.

Lemma get_truthy_and (v : jsval) (k : string) :
  truthy (get v k) = true → truthy (and_ v (get v k)) = true.
Proof. intros H. destruct v; try done. Qed.

(** X4. Any truthy [result] is stored as it is, without a check of its
    type: when the request settles with a payload whose [result] field is
    a truthy value [v] (a number, an array, an object as well as a
    non-empty text), both cells hold [v] and success is reported. *)
Theorem truthy_result_stored_as_is (w : World) (r : AxiosResponse) (v : jsval) :
  0 < inflight w →
  get (data r) "result" = v →
  truthy v = true →
  rawResult (app (step (Respond (Fulfilled r)) w)) = v ∧
  result (app (step (Respond (Fulfilled r)) w)) = v ∧
  log (step (Respond (Fulfilled r)) w) = log w ++ [ElMessage MsgSuccess "识别成功"].
Proof.
  intros Hpending Hget Htruthy.
  assert (truthy (and_ (data r) (get (data r) "result")) = true) as Hguard.
  { apply get_truthy_and. by rewrite Hget. }
  destruct (inflight w) as [|n] eqn:Hn; [lia|].
  unfold step. rewrite Hn. unfold_script. cbn. rewrite Hguard, Hget. done.
Qed.

Lemma truthy_result_stored_as_is_witness :
  rawResult (app (step (Respond (payload (JNum "123"))) world_with_old_result)) = JNum "123".
Proof.
  pose proof (truthy_result_stored_as_is world_with_old_result
                {| data := JObj {[ "result" := JNum "123" ]} |} (JNum "123")) as H.
  destruct H as (Hraw & _).
  - vm_compute. lia.
  - vm_compute. reflexivity.
  - reflexivity.
  - exact Hraw.
Defined.

(** X5. Clearing the result does not cancel a pending request.  If a file
    is removed, or replaced by another, while a request is pending, the
    answer to that request still fills both cells when it arrives: the
    cells then hold a result although no file, or another file, is
    selected. *)
Theorem late_answer_fills_cleared_result (w : World) (v : jsval) :
  0 < inflight w →
  truthy v = true →
  (fileList (app (step (Respond (payload v)) (step RemoveFile w))) = [] ∧
   rawResult (app (step (Respond (payload v)) (step RemoveFile w))) = v ∧
   result (app (step (Respond (payload v)) (step RemoveFile w))) = v) ∧
  (∀ file,
     fileList (app (step (Respond (payload v)) (step (SelectFile file) w))) = [file] ∧
     rawResult (app (step (Respond (payload v)) (step (SelectFile file) w))) = v ∧
     result (app (step (Respond (payload v)) (step (SelectFile file) w))) = v).
Proof.
  intros Hpending Htruthy.
  destruct (inflight w) as [|n] eqn:Hn; [lia|].
  split; [|intros file].
  all: unfold payload, step; unfold_script; cbn; rewrite Hn; cbn.
  all: unfold and_; cbn; rewrite lookup_singleton_eq; cbn; rewrite Htruthy; done.
Qed.

Lemma late_answer_fills_cleared_result_witness :
  fileList (app (run [SelectFile photo; Submit; RemoveFile; Respond (payload (JStr "abc"))]
                   initial_world)) = [] ∧
  rawResult (app (run [SelectFile photo; Submit; RemoveFile; Respond (payload (JStr "abc"))]
                    initial_world)) = JStr "abc".
Proof.
  pose proof (late_answer_fills_cleared_result (run [SelectFile photo; Submit] initial_world)
                (JStr "abc")) as H.
  destruct H as ((Hfiles & Hraw & _) & _).
  - vm_compute. lia.
  - reflexivity.
  - split; [exact Hfiles | exact Hraw].
Defined.

(** What a dispatch does on a selected file, in one piece. *)
Lemma step_Submit_selected (w : World) (file0 : UploadFile) (rest : list UploadFile) :
  fileList (app w) = file0 :: rest →
  step Submit w =
    {| app := write_loading true (app w); next_url := next_url w;
       live_urls := live_urls w; inflight := S (inflight w);
       clip_inflight := clip_inflight w;
       log := log w ++ [AxiosPost (mkRequest "/api/ocr"
                          (build_formData file0 (selectedMode (app w)))
                          [("Content-Type", "multipart/form-data")])];
       unhandled := unhandled w |}.
Proof. intros Hfiles. unfold_script. by rewrite Hfiles. Qed.

Lemma resume_inflight o w :
  inflight (run_handler (submitUpload_resume o) w) = inflight w.
Proof. destruct o as [r|e]; unfold_script; cbn; repeat case_match; by simplify_eq/=. Qed.

Lemma posts_snoc_post (l : list Effect) (req : Request) :
  filter (λ e, is_post e = true) (l ++ [AxiosPost req])
  = filter (λ e, is_post e = true) l ++ [AxiosPost req].
Proof. by rewrite filter_app. Qed.

(** X6. [submitUpload] does not look at the in-flight flag.  Invoked
    twice in a row on a selected file it sends two requests; when the
    first of them settles, whichever way, the flag goes down although the
    other request is still pending. *)
Theorem submit_is_not_guarded_by_loading (w : World) (o : Outcome) :
  fileList (app w) ≠ [] →
  inflight (step Submit (step Submit w)) = S (S (inflight w)) ∧
  length (posts (step Submit (step Submit w))) = S (S (length (posts w))) ∧
  loading (app (step (Respond o) (step Submit (step Submit w)))) = false ∧
  inflight (step (Respond o) (step Submit (step Submit w))) = S (inflight w).
Proof.
  intros Hfile.
  destruct (fileList (app w)) as [|file0 rest] eqn:Hfiles; [done|].
  rewrite (step_Submit_selected w file0 rest Hfiles).
  rewrite (step_Submit_selected _ file0 rest) by (cbn; exact Hfiles).
  cbn [inflight app log]. split; [done|]. split.
  { unfold posts. cbn [log]. rewrite !posts_snoc_post, !length_app. cbn. lia. }
  unfold step. cbn [inflight]. split.
  - apply resume_clears_loading.
  - by rewrite resume_inflight.
Qed.

Lemma submit_is_not_guarded_by_loading_witness :
  inflight (run [SelectFile photo; Submit; Submit] initial_world) = 2 ∧
  loading (app (run [SelectFile photo; Submit; Submit; Respond (Rejected network_error)]
                  initial_world)) = false ∧
  inflight (run [SelectFile photo; Submit; Submit; Respond (Rejected network_error)]
              initial_world) = 1.
Proof.
  pose proof (submit_is_not_guarded_by_loading (step (SelectFile photo) initial_world)
                (Rejected network_error)) as H.
  destruct H as (Htwo & _ & Hflag & Hone).
  - discriminate.
  - split; [exact Htwo|]. split; [exact Hflag | exact Hone].
Defined.

(** *** Requests *)

Lemma step_all_posts (P : Request → Prop) (a : Action) (w : World) :
  (∀ file0 rest, fileList (app w) = file0 :: rest →
     P (mkRequest "/api/ocr" (build_formData file0 (selectedMode (app w)))
          [("Content-Type", "multipart/form-data")])) →
  all_posts P w → all_posts P (step a w).
Proof.
  unfold all_posts. intros Hnew.
  destruct a as [file| |m|t| |[r|e]|[|]|[e|]|].
  5: { destruct (fileList (app w)) as [|file0 rest] eqn:Hfiles.
       - unfold_script. rewrite Hfiles. cbn. rewrite Forall_app, Forall_singleton. done.
       - rewrite (step_Submit_selected w file0 rest Hfiles). cbn.
         rewrite Forall_app, Forall_singleton. split; [done|]. by eapply Hnew. }
  all: clear Hnew; unfold_script; cbn; repeat case_match; simplify_eq/=.
  all: rewrite ?Forall_app, ?Forall_singleton; intros; repeat split; done.
Qed.

(** X7. Every request sent in any session goes to [/api/ocr] with the
    multipart header and carries a form of exactly two entries, [file]
    first and then [mode], the latter being [markdown] or [ocr]. *)
Theorem every_request_well_formed (acts : list Action) :
  all_posts well_formed_request (run acts initial_world).
Proof.
  apply (run_invariant (all_posts well_formed_request)).
  - intros a w. apply step_all_posts. intros file0 rest _.
    repeat split. by eexists _, _.
  - constructor.
Qed.

(** X8. Only the radio group changes the mode: every other event,
    selecting or removing a file and submitting included, leaves the mode
    cell as it is; so in a session in which the mode is never set every
    request carries the default, [markdown]. *)
Theorem mode_changes_only_by_setMode :
  (∀ a w, is_SetMode a = false → selectedMode (app (step a w)) = selectedMode (app w)) ∧
  (∀ acts,
     forallb (λ a, negb (is_SetMode a)) acts = true →
     selectedMode (app (run acts initial_world)) = Markdown ∧
     all_posts (λ r, field "mode" (req_body r) = [FormString "markdown"])
       (run acts initial_world)).
Proof.
  assert (∀ a w, is_SetMode a = false →
            selectedMode (app (step a w)) = selectedMode (app w)) as Hframe.
  { intros a w. step_paths a; done. }
  split; [exact Hframe|].
  intros acts.
  cut (∀ w, selectedMode (app w) = Markdown ∧
            all_posts (λ r, field "mode" (req_body r) = [FormString "markdown"]) w →
            forallb (λ a, negb (is_SetMode a)) acts = true →
            selectedMode (app (run acts w)) = Markdown ∧
            all_posts (λ r, field "mode" (req_body r) = [FormString "markdown"]) (run acts w)).
  { intros Hcut. apply Hcut. split; [done | constructor]. }
  induction acts as [|a rest IH]; intros w [Hmode Hposts] Hacts; [done|].
  cbn in Hacts. apply andb_prop in Hacts as [Ha Hrest]. apply negb_true_iff in Ha.
  cbn [run]. apply IH; [|exact Hrest]. split.
  - by rewrite Hframe.
  - apply step_all_posts; [|exact Hposts]. intros file0 others _. by rewrite Hmode.
Qed.

Lemma mode_changes_only_by_setMode_witness :
  selectedMode (app (run [SelectFile photo; Submit; RemoveFile; SelectFile photo; Submit]
                       initial_world)) = Markdown.
Proof.
  apply (proj2 mode_changes_only_by_setMode
           [SelectFile photo; Submit; RemoveFile; SelectFile photo; Submit]).
  reflexivity.
Defined.

(** X9. Only selecting and removing change the file list: submitting,
    the answer, copying, changing mode or tab and reading the preview all
    leave the selection as it is, so a file stays selected across any
    number of submissions. *)
Theorem selection_changes_only_by_select_remove (acts : list Action) (w : World) :
  forallb (λ a, negb (changes_selection a)) acts = true →
  fileList (app (run acts w)) = fileList (app w).
Proof.
  revert w. induction acts as [|a rest IH]; intros w Hacts; [done|].
  cbn in Hacts. apply andb_prop in Hacts as [Ha Hrest]. apply negb_true_iff in Ha.
  cbn [run]. rewrite IH by exact Hrest.
  clear IH Hrest. revert Ha. step_paths a; done.
Qed.

Lemma selection_changes_only_by_select_remove_witness :
  fileList (app (run [Submit; Respond (payload (JStr "abc")); Copy true; SetMode Ocr; Submit;
                      ReadImageUrl; Respond (Rejected network_error)]
                   (step (SelectFile photo) initial_world))) = [photo].
Proof.
  rewrite (selection_changes_only_by_select_remove _ (step (SelectFile photo) initial_world)).
  - reflexivity.
  - reflexivity.
Defined.

Lemma step_log_grows (a : Action) (w : World) : ∃ new, log (step a w) = log w ++ new.
Proof.
  step_paths a;
    first [ by exists [] ; rewrite app_nil_r
          | by eexists [_]
          | by eexists [_; _]; rewrite <- app_assoc ].
Qed.

(** X10. A result is shown only after a request was sent: along every
    session, if the raw result is not the empty string, or a request is
    pending, then the log holds a request. *)
Theorem result_implies_request_sent (acts : list Action) :
  (0 < inflight (run acts initial_world) ∨
   rawResult (app (run acts initial_world)) ≠ JStr "") →
  ∃ req, AxiosPost req ∈ log (run acts initial_world).
Proof.
  apply (run_invariant
           (λ w, (0 < inflight w ∨ rawResult (app w) ≠ JStr "") →
                 ∃ req, AxiosPost req ∈ log w)).
  - intros a w Hw.
    assert ((0 < inflight w ∨ rawResult (app w) ≠ JStr "") →
            ∃ req, AxiosPost req ∈ log (step a w)) as Hkeep.
    { intros H. destruct (Hw H) as [req Hreq]. exists req.
      destruct (step_log_grows a w) as [new ->]. apply elem_of_app. by left. }
    clear Hw. revert Hkeep.
    step_paths a; intros Hkeep Hnow.
    all: try (apply Hkeep; destruct Hnow; [left; lia | by right]).
    all: try (destruct Hnow; [lia | done]).
    all: try (apply Hkeep; left; lia).
    all: try (eexists; apply elem_of_app; right; apply list_elem_of_singleton; reflexivity).
  - cbn. intros [H|H]; [lia | done].
Qed.

Lemma result_implies_request_sent_witness :
  ∃ req, AxiosPost req ∈ log world_with_abc.
Proof.
  apply (result_implies_request_sent [SelectFile photo; Submit; Respond (payload (JStr "abc"))]).
  right. vm_compute. discriminate.
Defined.

(** *** The preview URL *)

(** X11. [imageUrl] is cached: a read right after a read changes nothing,
    so it allocates no second URL for the same selection. *)
Theorem imageUrl_read_twice (w : World) :
  step ReadImageUrl (step ReadImageUrl w) = step ReadImageUrl w.
Proof.
  unfold_script.
  destruct (imageUrl_cache (app w)) as [url|] eqn:Hcache; cbn.
  - by rewrite Hcache.
  - destruct (fileList (app w)) as [|file0 rest]; cbn; [done|].
    destruct (raw file0); done.
Qed.

Lemma step_preview_round (w : World) (file : UploadFile) (blob : RawFile) :
  raw file = Some blob →
  next_url (step ReadImageUrl (step (SelectFile file) w)) = S (next_url w) ∧
  live_urls (step ReadImageUrl (step (SelectFile file) w)) = {[next_url w]} ∪ live_urls w ∧
  fileList (app (step ReadImageUrl (step (SelectFile file) w))) = [file] ∧
  imageUrl_cache (app (step ReadImageUrl (step (SelectFile file) w)))
    = Some (object_url (next_url w)).
Proof. intros Hraw. unfold_script. cbn. rewrite Hraw. done. Qed.

(** X12. Every round of selecting a file and looking at its preview
    allocates one more object URL and frees none: after [n] rounds, with
    one file selected, the [n] URLs allocated in those rounds are all
    live, next to those that were live before. *)
Theorem preview_rounds_accumulate (n : nat) (file : UploadFile) (blob : RawFile) (w : World) :
  raw file = Some blob →
  next_url (run (preview_rounds n file) w) = next_url w + n ∧
  (∀ id, id ∈ live_urls (run (preview_rounds n file) w) ↔
         id ∈ live_urls w ∨ next_url w ≤ id < next_url w + n) ∧
  length (fileList (app (run (preview_rounds n file) w))) ≤ Nat.max 1 (length (fileList (app w))).
Proof.
  intros Hraw. revert w. induction n as [|n IH]; intros w.
  - cbn. split; [lia|]. split; [|lia]. intros id. split; [auto | intros [?|?]; [done | lia]].
  - cbn [preview_rounds run].
    destruct (step_preview_round w file blob Hraw) as (Hnext & Hlive & Hfiles & _).
    destruct (IH (step ReadImageUrl (step (SelectFile file) w))) as (IHnext & IHlive & IHfiles).
    rewrite Hnext in IHnext, IHlive. rewrite Hfiles in IHfiles.
    split; [lia|]. split; [|change (length [file]) with 1 in IHfiles; lia].
    intros id. rewrite IHlive, Hlive, elem_of_union, elem_of_singleton.
    intuition lia.
Qed.

Lemma preview_rounds_accumulate_witness :
  next_url (run (preview_rounds 3 photo) initial_world) = 3 ∧
  2 ∈ live_urls (run (preview_rounds 3 photo) initial_world).
Proof.
  pose proof (preview_rounds_accumulate 3 photo (mkRawFile "photo.png" "PNG-bytes")
                initial_world eq_refl) as (Hnext & Hlive & _).
  split; [exact Hnext|].
  apply Hlive. right. cbn. lia.
Defined.

(** X13. With no file selected, or a file without its [raw], a read of a
    dirty [imageUrl] yields the empty string and allocates nothing. *)
Theorem imageUrl_without_raw_file (w : World) :
  imageUrl_cache (app w) = None →
  match fileList (app w) with
  | file0 :: _ => raw file0 = None
  | [] => True
  end →
  imageUrl_cache (app (step ReadImageUrl w)) = Some "" ∧
  log (step ReadImageUrl w) = log w ∧
  next_url (step ReadImageUrl w) = next_url w ∧
  live_urls (step ReadImageUrl w) = live_urls w.
Proof.
  intros Hcache Hfiles. unfold_script. rewrite Hcache.
  destruct (fileList (app w)) as [|file0 rest]; cbn; [done|].
  by rewrite Hfiles.
Qed.

Lemma imageUrl_without_raw_file_witness :
  imageUrl_cache (app (step ReadImageUrl
                         (step (SelectFile {| name := "scan.png"; raw := None |}) initial_world)))
    = Some "" ∧
  imageUrl_cache (app (step ReadImageUrl initial_world)) = Some "".
Proof.
  split.
  - apply (imageUrl_without_raw_file
             (step (SelectFile {| name := "scan.png"; raw := None |}) initial_world));
      reflexivity.
  - apply (imageUrl_without_raw_file initial_world); [reflexivity | exact I].
Defined.

(** X14. The cached preview is never stale: along every session, whenever
    the cache of [imageUrl] is valid it holds a live object URL if the
    first selected file has its [raw], and the empty string if there is no
    such file. *)
Theorem preview_cache_coherent (acts : list Action) :
  cache_coherent (run acts initial_world).
Proof.
  apply (run_invariant cache_coherent).
  - intros a w. unfold cache_coherent. step_paths a; try done; try congruence.
    all: intros Hw url Hurl; simplify_eq/=.
    all: first [ done
               | by apply Hw
               | exists (next_url w); split; [done | set_solver]
               | destruct (Hw _ Hurl) as (id & -> & Hid); eexists; split; [done | set_solver] ].
  - intros url Hurl. done.
Qed.

(** *** The failure notification *)

(** X15. A [detail] that is not a text is put into the notification by
    its string conversion: for an object without a key [toString], or a
    list of one such object (the shape of a validation error), the user
    reads [[object Object]]. *)
Theorem object_detail_shown_as_object_Object (e : JsError) (fields : gmap string jsval) :
  fields !! "toString" = None →
  server_detail e = Some (JObj fields) ∨ server_detail e = Some (JArr [JObj fields]) →
  failure_text e = Some ("识别失败: " +:+ "[object Object]").
Proof.
  intros Hplain Hdetail. unfold failure_text. rewrite response_detail_lookup.
  destruct Hdetail as [-> | ->]; cbn; by rewrite Hplain.
Qed.

Lemma object_detail_shown_as_object_Object_witness :
  failure_text {| message := "Request failed with status code 422";
                  response := Some {| data := JObj {[ "detail" :=
                                 JArr [JObj {[ "msg" := JStr "field required" ]}] ]} |} |}
  = Some "识别失败: [object Object]".
Proof.
  rewrite (object_detail_shown_as_object_Object _ {[ "msg" := JStr "field required" ]}).
  - reflexivity.
  - vm_compute. reflexivity.
  - right. vm_compute. reflexivity.
Defined.

(** X16. A [detail] that is present but falsy (the empty text, [null],
    [false], zero) is passed over: the notification then carries the
    error's own message, as it does when there is no [detail]. *)
Theorem falsy_detail_falls_back_to_message (e : JsError) (v : jsval) :
  server_detail e = Some v →
  truthy v = false →
  failure_text e = Some ("识别失败: " +:+ message e).
Proof.
  intros Hdetail Hfalsy. unfold failure_text. rewrite response_detail_lookup, Hdetail.
  cbn. unfold or_. by rewrite Hfalsy.
Qed.

Lemma falsy_detail_falls_back_to_message_witness :
  failure_text {| message := "Request failed with status code 500";
                  response := Some {| data := JObj {[ "detail" := JNull ]} |} |}
  = Some "识别失败: Request failed with status code 500".
Proof.
  rewrite (falsy_detail_falls_back_to_message _ JNull).
  - reflexivity.
  - vm_compute. reflexivity.
  - reflexivity.
Defined.

(** *** Copying and submitting, edge cases *)

(** X17. Along every session [copyResult] does nothing exactly when the
    raw result is the empty string, with or without a clipboard; and with
    a clipboard it otherwise asks for one write, passing the raw result
    itself. *)
Theorem copy_noop_iff_raw_empty (acts : list Action) (clipboard : bool) :
  (step (Copy clipboard) (run acts initial_world) = run acts initial_world ↔
     rawResult (app (run acts initial_world)) = JStr "") ∧
  (rawResult (app (run acts initial_world)) ≠ JStr "" →
     log (step (Copy true) (run acts initial_world))
       = log (run acts initial_world)
           ++ [ClipboardWriteText (rawResult (app (run acts initial_world)))]).
Proof.
  assert (rawResult (app (run acts initial_world)) = JStr "" ∨
          truthy (rawResult (app (run acts initial_world))) = true) as Hraw.
  { apply (run_invariant
             (λ w, rawResult (app w) = JStr "" ∨ truthy (rawResult (app w)) = true)).
    - apply step_raw_empty_or_truthy.
    - by left. }
  set (w := run acts initial_world) in *.
  assert (truthy (rawResult (app w)) = true →
          log (step (Copy true) w) = log w ++ [ClipboardWriteText (rawResult (app w))])
    as Hwrite.
  { intros Htruthy. unfold_script. by rewrite Htruthy. }
  assert (truthy (rawResult (app w)) = true →
          unhandled (step (Copy false) w) = unhandled w ++ [clipboard_undefined])
    as Hthrow.
  { intros Htruthy. unfold_script. by rewrite Htruthy. }
  split; [split|].
  - intros Hnoop. destruct Hraw as [Hempty|Htruthy]; [done|]. destruct clipboard.
    + apply Hwrite in Htruthy. rewrite Hnoop in Htruthy.
      apply (f_equal length) in Htruthy. rewrite length_app in Htruthy. cbn in Htruthy. lia.
    + apply Hthrow in Htruthy. rewrite Hnoop in Htruthy.
      apply (f_equal length) in Htruthy. rewrite length_app in Htruthy. cbn in Htruthy. lia.
  - intros Hempty. unfold_script. by rewrite Hempty.
  - intros Hne. destruct Hraw as [Hempty|Htruthy]; [done | by apply Hwrite].
Qed.

Lemma copy_noop_iff_raw_empty_witness :
  log (step (Copy true) world_with_abc)
    = log world_with_abc ++ [ClipboardWriteText (JStr "abc")].
Proof.
  apply (proj2 (copy_noop_iff_raw_empty
                  [SelectFile photo; Submit; Respond (payload (JStr "abc"))] true)).
  vm_compute. discriminate.
Defined.

(** X18. An entry without its [raw] is submitted all the same: the
    request is sent and its [file] field is the text [undefined]. *)
Theorem submit_without_raw_sends_undefined (w : World) (file0 : UploadFile)
    (rest : list UploadFile) :
  fileList (app w) = file0 :: rest →
  raw file0 = None →
  ∃ req,
    last_request (step Submit w) = Some req ∧
    field "file" (req_body req) = [FormString "undefined"] ∧
    inflight (step Submit w) = S (inflight w) ∧
    loading (app (step Submit w)) = true.
Proof.
  intros Hfiles Hraw. rewrite (step_Submit_selected w file0 rest Hfiles).
  eexists. unfold last_request. cbn. rewrite last_snoc. split; [done|].
  unfold build_formData. rewrite Hraw. done.
Qed.

Lemma submit_without_raw_sends_undefined_witness :
  ∃ req,
    last_request (run [SelectFile {| name := "scan.png"; raw := None |}; Submit] initial_world)
      = Some req ∧
    field "file" (req_body req) = [FormString "undefined"].
Proof.
  destruct (submit_without_raw_sends_undefined
              (step (SelectFile {| name := "scan.png"; raw := None |}) initial_world)
              {| name := "scan.png"; raw := None |} [] eq_refl eq_refl)
    as (req & Hreq & Hfile & _).
  exists req. split; [exact Hreq | exact Hfile].
Defined.

(** *** Where an error escapes *)

(** X19. When the [detail] of an error answer is an object with a key
    [toString], building the notification throws inside the [catch]
    block: the error was logged to the console, no notification is shown,
    an error leaves the handler, and the [finally] block still clears the
    flag; the result cells are untouched. *)
Theorem unprintable_detail_escapes (w : World) (e : JsError)
    (fields : gmap string jsval) (v : jsval) :
  0 < inflight w →
  server_detail e = Some (JObj fields) →
  fields !! "toString" = Some v →
  log (step (Respond (Rejected e)) w) = log w ++ [ConsoleError e] ∧
  (∃ err, unhandled (step (Respond (Rejected e)) w) = unhandled w ++ [err]) ∧
  loading (app (step (Respond (Rejected e)) w)) = false ∧
  rawResult (app (step (Respond (Rejected e)) w)) = rawResult (app w) ∧
  result (app (step (Respond (Rejected e)) w)) = result (app w).
Proof.
  intros Hpending Hdetail Hkey.
  assert (failure_text e = None) as Hnone.
  { unfold failure_text. rewrite response_detail_lookup, Hdetail. cbn. by rewrite Hkey. }
  destruct (inflight w) as [|n] eqn:Hn; [lia|].
  unfold step. rewrite Hn. unfold_script. cbn. rewrite Hnone. cbn.
  repeat split. by eexists.
Qed.

Lemma unprintable_detail_escapes_witness :
  log (step (Respond (Rejected unprintable_error)) world_with_old_result)
    = log world_with_old_result ++ [ConsoleError unprintable_error] ∧
  loading (app (step (Respond (Rejected unprintable_error)) world_with_old_result)) = false.
Proof.
  pose proof (unprintable_detail_escapes world_with_old_result unprintable_error
                {[ "toString" := JNum "1" ]} (JNum "1")) as H.
  destruct H as (Hlog & _ & Hflag & _).
  - vm_compute. lia.
  - vm_compute. reflexivity.
  - vm_compute. reflexivity.
  - split; [exact Hlog | exact Hflag].
Defined.

(** X20. In a page without [navigator.clipboard], a click on the copy
    button with a non-empty raw result throws before anything is written:
    no clipboard write is requested, no notification is shown, the state
    is as before and an error leaves the handler. *)
Theorem copy_without_clipboard_escapes (w : World) :
  truthy (rawResult (app w)) = true →
  log (step (Copy false) w) = log w ∧
  clip_inflight (step (Copy false) w) = clip_inflight w ∧
  app (step (Copy false) w) = app w ∧
  ∃ err, unhandled (step (Copy false) w) = unhandled w ++ [err].
Proof.
  intros Htruthy. unfold_script. rewrite Htruthy. cbn. repeat split. by eexists.
Qed.

Lemma copy_without_clipboard_escapes_witness :
  log (step (Copy false) world_with_abc) = log world_with_abc ∧
  unhandled (step (Copy false) world_with_abc) ≠ [].
Proof.
  destruct (copy_without_clipboard_escapes world_with_abc) as (Hlog & _ & _ & err & Herr).
  - reflexivity.
  - split; [exact Hlog|]. rewrite Herr. by destruct (unhandled world_with_abc).
Defined.

(** X21. The component never releases an object URL, and only a read of
    [imageUrl] allocates one: every other event leaves the URL store as
    it is, and along every session each URL allocated so far is still
    live and has been released zero times, whether or not its file is
    still selected. *)
Theorem preview_urls_never_released :
  (∀ acts id,
     id < next_url (run acts initial_world) →
     id ∈ live_urls (run acts initial_world) ∧
     revoke_count id (run acts initial_world) = 0) ∧
  (∀ a w,
     is_ReadImageUrl a = false →
     next_url (step a w) = next_url w ∧ live_urls (step a w) = live_urls w).
Proof.
  split.
  - intros acts id Hid. split.
    + revert id Hid.
      cut (∀ id, id ∈ live_urls (run acts initial_world) ↔ id < next_url (run acts initial_world)).
      { intros Hiff id Hid. by apply Hiff. }
      apply (run_invariant (λ w, ∀ id, id ∈ live_urls w ↔ id < next_url w)).
      * apply step_live_urls.
      * intros id. cbn. rewrite elem_of_empty. lia.
    + apply never_revoked_count.
      apply (run_invariant never_revoked); [apply step_never_revoked|].
      unfold never_revoked. cbn. constructor.
  - apply step_no_allocation.
Qed.

Lemma preview_urls_never_released_witness :
  0 < next_url (run preview_then_remove initial_world) ∧
  0 ∈ live_urls (run preview_then_remove initial_world) ∧
  revoke_count 0 (run preview_then_remove initial_world) = 0.
Proof.
  assert (0 < next_url (run preview_then_remove initial_world)) as Hid
    by (vm_compute; lia).
  split; [exact Hid|].
  exact (proj1 preview_urls_never_released preview_then_remove 0 Hid).
Defined.
